(** * Confidence intervals with the t-distribution

    A shallow embedding of the notebook [index.ipynb]: the three statistics
    [x_bar], [s], [se] computed with NumPy and the interval returned by
    [scipy.stats.t.interval].  The quantile kernel of the t-distribution,
    SciPy's [special.stdtrit], is a parameter of both readings below.

    The code is read twice.

    - Module [B64] is the code on binary64 floats, the floats of Python: the
      primitive floats of Rocq, with NumPy's order of summation.  It runs:
      on the readings of the notebook it gives the statistics the notebook
      printed, digit for digit.  Every statement that depends on the
      arithmetic on finite values (rounding, overflow, underflow) is made
      about [B64].

    - The definitions outside [B64] read a float as an exact real number or
      one of the three special values [inf], [-inf], [nan].  The control
      flow of the libraries and the arithmetic on the special values are
      those of the code; the arithmetic on finite values is that of the
      reals, without rounding, overflow or the sign of zero.  This reading is
      used only for statements whose truth does not depend on the arithmetic
      on finite values (whether the call fails, how [nan] and the infinities
      propagate, what the library does with its arguments) and for the
      example of the notebook, which is stated with tolerances far above the
      rounding errors. *)

From Stdlib Require Import Floats Uint63.
From Stdlib Require Import Reals Lra Lia ZArith List String Permutation.
Import ListNotations.
Set Warnings "-inexact-float".
Open Scope R_scope.

(** ** The exact reading: reals and the special values *)

Inductive pyfloat : Type :=
| Fin (r : R)
| PInf
| NInf
| NaN.

Definition Rltb (x y : R) : bool := if Rlt_dec x y then true else false.
Definition Reqb (x y : R) : bool := if Req_dec_T x y then true else false.

(** [x * inf] for a finite [x]. *)
Definition inf_of_sign (x : R) : pyfloat :=
  if Rltb 0 x then PInf else if Rltb x 0 then NInf else NaN.

Definition fneg (a : pyfloat) : pyfloat :=
  match a with
  | Fin x => Fin (- x)
  | PInf => NInf
  | NInf => PInf
  | NaN => NaN
  end.

Definition fadd (a b : pyfloat) : pyfloat :=
  match a, b with
  | NaN, _ | _, NaN => NaN
  | Fin x, Fin y => Fin (x + y)
  | PInf, NInf | NInf, PInf => NaN
  | PInf, _ | _, PInf => PInf
  | NInf, _ | _, NInf => NInf
  end.

Definition fsub (a b : pyfloat) : pyfloat := fadd a (fneg b).

Definition fmul (a b : pyfloat) : pyfloat :=
  match a, b with
  | NaN, _ | _, NaN => NaN
  | Fin x, Fin y => Fin (x * y)
  | Fin x, PInf | PInf, Fin x => inf_of_sign x
  | Fin x, NInf | NInf, Fin x => fneg (inf_of_sign x)
  | PInf, PInf | NInf, NInf => PInf
  | PInf, NInf | NInf, PInf => NInf
  end.

Definition fdiv (a b : pyfloat) : pyfloat :=
  match a, b with
  | NaN, _ | _, NaN => NaN
  | Fin x, Fin y => if Reqb y 0 then inf_of_sign x else Fin (x / y)
  | Fin _, PInf | Fin _, NInf => Fin 0
  | PInf, Fin y => if Rltb y 0 then NInf else PInf
  | NInf, Fin y => if Rltb y 0 then PInf else NInf
  | _, _ => NaN
  end.

(** Comparisons: every comparison with [nan] is false. *)
Definition flt (a b : pyfloat) : bool :=
  match a, b with
  | NaN, _ | _, NaN => false
  | Fin x, Fin y => Rltb x y
  | NInf, Fin _ | NInf, PInf | Fin _, PInf => true
  | _, _ => false
  end.

Definition fgt (a b : pyfloat) : bool := flt b a.

Definition feq (a b : pyfloat) : bool :=
  match a, b with
  | Fin x, Fin y => Reqb x y
  | PInf, PInf | NInf, NInf => true
  | _, _ => false
  end.

(** A Python [int] used where a float is expected. *)
Definition of_int (z : Z) : pyfloat := Fin (IZR z).

(** [len] of a Python list. *)
Definition len {A : Type} (l : list A) : Z := Z.of_nat (List.length l).

(** ** NumPy *)

Module np.

(** [np.sqrt]: [nan] below zero. *)
Definition sqrt (a : pyfloat) : pyfloat :=
  match a with
  | Fin x => if Rltb x 0 then NaN else Fin (R_sqrt.sqrt x)
  | PInf => PInf
  | NInf => NaN
  | NaN => NaN
  end.

(** [np.add.reduce]: the sum of the elements, [0.0] for no element. *)
Definition sum (a : list pyfloat) : pyfloat := fold_left fadd a (Fin 0).

(** [np.mean]: the sum over the number of elements. *)
Definition mean (a : list pyfloat) : pyfloat :=
  let rcount := len a in
  fdiv (sum a) (of_int rcount).

(** [np.var(a, ddof)]: the squared deviations from the mean, summed, over
    [max(n - ddof, 0)]. *)
Definition var (a : list pyfloat) (ddof : Z) : pyfloat :=
  let rcount := len a in
  let arrmean := fdiv (sum a) (of_int rcount) in
  let x := map (fun v => fsub v arrmean) a in
  let x := map (fun v => fmul v v) x in
  let ret := sum x in
  let rcount := Z.max (rcount - ddof) 0 in
  fdiv ret (of_int rcount).

(** [np.std(a, ddof)]. *)
Definition std (a : list pyfloat) (ddof : Z) : pyfloat := sqrt (var a ddof).

End np.

(** ** SciPy: [scipy.stats.t] *)

Inductive exception : Type :=
| ValueError (msg : string).

(** What a call does: it raises, or it returns the pair [(a, b)]. *)
Inductive outcome : Type :=
| Raised (e : exception)
| Returned (a b : pyfloat).

Module stats.
Section T.

(** [scipy.special.stdtrit df q]: the quantile of the t-distribution with
    [df] degrees of freedom at the cumulative probability [q].  It is called
    with [0 < df] and [0 < q < 1] only. *)
Variable stdtrit : Z -> R -> R.

(** [t._ppf(q, df)]. *)
Definition _ppf (q : pyfloat) (df : Z) : pyfloat :=
  match q with
  | Fin r => Fin (stdtrit df r)
  | _ => NaN
  end.

(** [t.ppf(q, df, loc, scale)] of [rv_continuous]: the arguments are checked
    ([df > 0], [scale > 0], [loc] not [nan]); the support of the
    distribution is [(-inf, inf)]; the bad value is [nan]. *)
Definition ppf (q : pyfloat) (df : Z) (loc scale : pyfloat) : pyfloat :=
  let _a := NInf in
  let _b := PInf in
  let cond0 := ((0 <? df)%Z && fgt scale (Fin 0) && feq loc loc)%bool in
  let cond1 := (flt (Fin 0) q && flt q (Fin 1))%bool in
  let cond2 := (cond0 && feq q (Fin 0))%bool in
  let cond3 := (cond0 && feq q (Fin 1))%bool in
  let cond := (cond0 && cond1)%bool in
  let lower_bound := fadd (fmul _a scale) loc in
  let upper_bound := fadd (fmul _b scale) loc in
  if cond then fadd (fmul (_ppf q df) scale) loc
  else if cond3 then upper_bound
  else if cond2 then lower_bound
  else NaN.

(** [t.interval(confidence, df, loc, scale)]. *)
Definition interval (confidence : pyfloat) (df : Z) (loc scale : pyfloat)
  : outcome :=
  let alpha := confidence in
  if (fgt alpha (Fin 1) || flt alpha (Fin 0))%bool
  then Raised (ValueError "alpha must be between 0 and 1 inclusive")
  else
    let q1 := fdiv (fsub (Fin 1) alpha) (Fin 2) in
    let q2 := fdiv (fadd (Fin 1) alpha) (Fin 2) in
    let a := ppf q1 df loc scale in
    let b := ppf q2 df loc scale in
    Returned a b.

End T.
End stats.

(** ** The notebook *)

(** The global variables of the notebook. *)
Record globals : Type := mkGlobals {
  sample_chol_levels : list pyfloat;
  x_bar : pyfloat;
  s : pyfloat;
  se : pyfloat
}.

(** The cell that binds the sample. *)
Definition cell_sample (sample : list pyfloat) (g : globals) : globals :=
  mkGlobals sample (x_bar g) (s g) (se g).

(** The cell that computes the mean, the standard deviation and the standard
    error of the sample bound last. *)
Definition cell_stats (g : globals) : globals :=
  let x_bar := np.mean (sample_chol_levels g) in
  let s := np.std (sample_chol_levels g) 1 in
  let se := fdiv s (np.sqrt (of_int (len (sample_chol_levels g)))) in
  mkGlobals (sample_chol_levels g) x_bar s se.

Section Notebook.

Variable stdtrit : Z -> R -> R.

(** The cell that evaluates the interval, at a confidence level. *)
Definition cell_interval (confidence : pyfloat) (g : globals) : outcome :=
  stats.interval stdtrit confidence
                 (len (sample_chol_levels g) - 1)
                 (x_bar g)
                 (se g).

(** The three cells in the order of the notebook. *)
Definition run_cells (sample : list pyfloat) (confidence : pyfloat)
           (g : globals) : globals * outcome :=
  let g := cell_sample sample g in
  let g := cell_stats g in
  (g, cell_interval confidence g).

(** The computation as one function of the sample and the level. *)
Definition computeConfidenceInterval (sample : list pyfloat)
           (confidence : pyfloat) : outcome :=
  let x_bar := np.mean sample in
  let s := np.std sample 1 in
  let se := fdiv s (np.sqrt (of_int (len sample))) in
  stats.interval stdtrit confidence (len sample - 1) x_bar se.

End Notebook.


(** ** The statistics in the words of the specification

    The mean, the Bessel-corrected variance and deviation, the standard error
    and the degrees of freedom of a sample of real numbers, over the reals. *)

Module Spec.

Definition total (sample : list R) : R := fold_right Rplus 0 sample.

Definition n (sample : list R) : R := INR (List.length sample).

Definition mean (sample : list R) : R := total sample / n sample.

Definition variance (sample : list R) : R :=
  total (map (fun x => (x - mean sample) * (x - mean sample)) sample)
  / (n sample - 1).

Definition stddev (sample : list R) : R := R_sqrt.sqrt (variance sample).

Definition stderr (sample : list R) : R :=
  stddev sample / R_sqrt.sqrt (n sample).

Definition df (sample : list R) : Z := Z.of_nat (List.length sample) - 1.

End Spec.

(** ** Readings of an outcome *)

Definition raises (o : outcome) : bool :=
  match o with
  | Raised _ => true
  | Returned _ _ => false
  end.

(** A float that is neither infinite nor [nan]. *)
Definition isfinite (a : pyfloat) : bool :=
  match a with
  | Fin _ => true
  | _ => false
  end.

(** ** Data of the notebook and of the scenarios *)

(** The twenty cholesterol readings of the first example. *)
Definition chol_levels : list R :=
  [66; 36; 73; 48; 81; 69; 75; 81; 73;
   69; 101; 70; 50; 42; 36; 71; 65; 43; 76; 24].

(** The quantile of the t-distribution with one degree of freedom (the Cauchy
    distribution), for every [df]: the kernel the general statements are
    instantiated at, on samples of two values. *)
Definition cauchy_quantile (df : Z) (q : R) : R := tan (PI * (q - 1 / 2)).

(** Globals before any cell has run: nothing of use is bound. *)
Definition fresh_globals : globals := mkGlobals [] NaN NaN NaN.

(** A kernel that agrees with the reference table at [df = 19], [p = 0.975]
    ([t = 2.093]) and is odd around [p = 1/2]. *)
Definition table_quantile (df : Z) (q : R) : R := 2.093 * (q - 1 / 2) / 0.475.

(** ** The code on binary64 floats *)

Module B64.

Local Open Scope float_scope.

(** A Python [int] used where a float is expected (a count: never
    negative). *)
Definition of_int (z : Z) : float := PrimFloat.of_uint63 (Uint63.of_Z z).

Module np.

(** [np.sqrt]. *)
Definition sqrt (a : float) : float := PrimFloat.sqrt a.

(** One pass of the unrolled loop of NumPy's pairwise sum: the next eight
    values are added to the eight accumulators, lane by lane. *)
Fixpoint add_lanes (r b : list float) : list float :=
  match r, b with
  | x :: r', y :: b' => (x + y) :: add_lanes r' b'
  | _, _ => r
  end.

(** The unrolled loop: blocks of eight as long as eight values are left. *)
Fixpoint unrolled (steps : nat) (r a : list float) : list float * list float :=
  match steps with
  | O => (r, a)
  | S k =>
      if (8 <=? List.length a)%nat
      then unrolled k (add_lanes r (firstn 8 a)) (skipn 8 a)
      else (r, a)
  end.

(** The eight accumulators added up as a tree. *)
Definition combine8 (r : list float) : float :=
  match r with
  | [r0; r1; r2; r3; r4; r5; r6; r7] =>
      ((r0 + r1) + (r2 + r3)) + ((r4 + r5) + (r6 + r7))
  | _ => nan
  end.

(** NumPy's pairwise sum of a contiguous array of doubles: fewer than eight
    values are added from left to right, starting from [0.0]; up to 128
    values go through eight accumulators, the rest being added one by one;
    a longer array is split in two near its middle, at a multiple of eight.
    [fuel] bounds the depth of the splitting; the length of the array is
    enough. *)
Fixpoint pairwise_sum (fuel : nat) (a : list float) : float :=
  let n := List.length a in
  if (n <? 8)%nat then fold_left PrimFloat.add a 0
  else if (n <=? 128)%nat then
    let '(r, rest) := unrolled n (firstn 8 a) (skipn 8 a) in
    fold_left PrimFloat.add rest (combine8 r)
  else
    match fuel with
    | O => nan
    | S fuel' =>
        let n2 := (n / 2 - (n / 2) mod 8)%nat in
        pairwise_sum fuel' (firstn n2 a) + pairwise_sum fuel' (skipn n2 a)
    end.

(** [np.add.reduce]: the pairwise sum added to the identity [0.0]. *)
Definition sum (a : list float) : float := 0 + pairwise_sum (List.length a) a.

(** [np.mean]: the sum over the number of elements. *)
Definition mean (a : list float) : float :=
  let rcount := len a in
  sum a / of_int rcount.

(** [np.var(a, ddof)]: the squared deviations from the mean, summed, over
    [max(n - ddof, 0)]. *)
Definition var (a : list float) (ddof : Z) : float :=
  let rcount := len a in
  let arrmean := sum a / of_int rcount in
  let x := map (fun v => v - arrmean) a in
  let x := map (fun v => v * v) x in
  let ret := sum x in
  let rcount := Z.max (rcount - ddof) 0 in
  ret / of_int rcount.

(** [np.std(a, ddof)]. *)
Definition std (a : list float) (ddof : Z) : float := sqrt (var a ddof).

End np.

(** What a call does: it raises, or it returns the pair [(a, b)]. *)
Inductive outcome : Type :=
| Raised (e : exception)
| Returned (a b : float).

Module stats.
Section T.

(** [scipy.special.stdtrit df q], called with [0 < df] and [0 < q < 1]
    only. *)
Variable stdtrit : Z -> float -> float.

(** [t._ppf(q, df)]. *)
Definition _ppf (q : float) (df : Z) : float := stdtrit df q.

(** [t.ppf(q, df, loc, scale)] of [rv_continuous]. *)
Definition ppf (q : float) (df : Z) (loc scale : float) : float :=
  let _a := neg_infinity in
  let _b := infinity in
  let cond0 := ((0 <? df)%Z && (0 <? scale) && (loc =? loc))%bool in
  let cond1 := ((0 <? q) && (q <? 1))%bool in
  let cond2 := (cond0 && (q =? 0))%bool in
  let cond3 := (cond0 && (q =? 1))%bool in
  let cond := (cond0 && cond1)%bool in
  let lower_bound := _a * scale + loc in
  let upper_bound := _b * scale + loc in
  if cond then _ppf q df * scale + loc
  else if cond3 then upper_bound
  else if cond2 then lower_bound
  else nan.

(** [t.interval(confidence, df, loc, scale)]. *)
Definition interval (confidence : float) (df : Z) (loc scale : float)
  : outcome :=
  let alpha := confidence in
  if ((1 <? alpha) || (alpha <? 0))%bool
  then Raised (ValueError "alpha must be between 0 and 1 inclusive")
  else
    let q1 := (1.0 - alpha) / 2 in
    let q2 := (1.0 + alpha) / 2 in
    let a := ppf q1 df loc scale in
    let b := ppf q2 df loc scale in
    Returned a b.

End T.
End stats.

(** The three statistics of the notebook, of the sample bound to
    [sample_chol_levels]. *)
Definition x_bar (sample_chol_levels : list float) : float :=
  np.mean sample_chol_levels.

Definition s (sample_chol_levels : list float) : float :=
  np.std sample_chol_levels 1.

Definition se (sample_chol_levels : list float) : float :=
  s sample_chol_levels / np.sqrt (of_int (len sample_chol_levels)).

(** The computation as one function of the sample and the level. *)
Definition computeConfidenceInterval (stdtrit : Z -> float -> float)
           (sample : list float) (confidence : float) : outcome :=
  stats.interval stdtrit confidence (len sample - 1) (x_bar sample) (se sample).

(** [np.isfinite]: neither infinite nor [nan]. *)
Definition isfinite (a : float) : bool := (abs a <? infinity).



(** The twenty cholesterol readings of the first example. *)
Definition sample_chol_levels : list float :=
  [66.0; 36.0; 73.0; 48.0; 81.0; 69.0; 75.0; 81.0; 73.0;
   69.0; 101.0; 70.0; 50.0; 42.0; 36.0; 71.0; 65.0; 43.0; 76.0; 24.0].


End B64.

(** * Properties *)

(** ** Comparisons of reals as booleans *)

Lemma Rltb_true (x y : R) : x < y -> Rltb x y = true.
Proof. intros H. unfold Rltb. destruct (Rlt_dec x y); [reflexivity | contradiction]. Qed.

Lemma Rltb_false (x y : R) : y <= x -> Rltb x y = false.
Proof. intros H. unfold Rltb. destruct (Rlt_dec x y); [lra | reflexivity]. Qed.

Lemma Reqb_true (x y : R) : x = y -> Reqb x y = true.
Proof. intros H. unfold Reqb. destruct (Req_dec_T x y); [reflexivity | contradiction]. Qed.

Lemma Reqb_false (x y : R) : x <> y -> Reqb x y = false.
Proof. intros H. unfold Reqb. destruct (Req_dec_T x y); [contradiction | reflexivity]. Qed.

Lemma Rltb_spec (x y : R) : Rltb x y = true <-> x < y.
Proof.
  unfold Rltb. destruct (Rlt_dec x y); split; intros; try assumption;
    try reflexivity; try discriminate; contradiction.
Qed.

(** Decide the comparisons of the goal whose outcome [lra] can see. *)
Ltac rbool :=
  repeat match goal with
    | |- context [Rltb ?x ?y] =>
        first [ rewrite (Rltb_true x y) by lra
              | rewrite (Rltb_false x y) by lra ]
    | |- context [Reqb ?x ?y] =>
        first [ rewrite (Reqb_true x y) by lra
              | rewrite (Reqb_false x y) by lra ]
    end.

(** ** NumPy on finite samples *)

Lemma len_map_Fin (xs : list R) : len (map Fin xs) = Z.of_nat (List.length xs).
Proof. unfold len. rewrite length_map. reflexivity. Qed.

Lemma IZR_len (xs : list R) : IZR (Z.of_nat (List.length xs)) = Spec.n xs.
Proof. unfold Spec.n. symmetry. apply INR_IZR_INZ. Qed.

Lemma fold_fadd_Fin (xs : list R) (acc : R) :
  fold_left fadd (map Fin xs) (Fin acc) = Fin (acc + Spec.total xs).
Proof.
  revert acc. induction xs as [| x xs IH]; intros acc; simpl.
  - f_equal. lra.
  - rewrite IH. f_equal. lra.
Qed.

Lemma sum_Fin (xs : list R) : np.sum (map Fin xs) = Fin (Spec.total xs).
Proof. unfold np.sum. rewrite fold_fadd_Fin. f_equal. lra. Qed.

Lemma n_pos (xs : list R) : xs <> [] -> 0 < Spec.n xs.
Proof.
  intros H. unfold Spec.n. destruct xs as [| x xs]; [contradiction |].
  apply lt_0_INR. simpl. lia.
Qed.

Lemma n_ge_2 (xs : list R) : (2 <= List.length xs)%nat -> 2 <= Spec.n xs.
Proof. intros H. unfold Spec.n. apply le_INR in H. simpl in H. lra. Qed.

Lemma mean_Fin (xs : list R) :
  xs <> [] -> np.mean (map Fin xs) = Fin (Spec.mean xs).
Proof.
  intros H. pose proof (n_pos xs H) as Hn.
  unfold np.mean, of_int. rewrite sum_Fin, len_map_Fin, IZR_len. simpl.
  rbool. reflexivity.
Qed.

Lemma total_nonneg (xs : list R) :
  (forall x, In x xs -> 0 <= x) -> 0 <= Spec.total xs.
Proof.
  induction xs as [| x xs IH]; intros H; simpl; [lra |].
  assert (0 <= x) by (apply H; left; reflexivity).
  assert (0 <= Spec.total xs) by (apply IH; intros y Hy; apply H; right; exact Hy).
  lra.
Qed.

Lemma squares_nonneg (m : R) (xs : list R) :
  0 <= Spec.total (map (fun x => (x - m) * (x - m)) xs).
Proof.
  apply total_nonneg. intros y Hy. apply in_map_iff in Hy.
  destruct Hy as [x [<- _]]. apply (Rle_0_sqr (x - m)).
Qed.

Lemma variance_nonneg (xs : list R) :
  (2 <= List.length xs)%nat -> 0 <= Spec.variance xs.
Proof.
  intros H. pose proof (n_ge_2 xs H). unfold Spec.variance.
  apply Rmult_le_pos; [apply squares_nonneg |].
  apply Rlt_le, Rinv_0_lt_compat. lra.
Qed.

Lemma var_Fin (xs : list R) :
  (2 <= List.length xs)%nat ->
  np.var (map Fin xs) 1 = Fin (Spec.variance xs).
Proof.
  intros H. pose proof (n_ge_2 xs H) as Hn.
  unfold np.var, of_int. rewrite sum_Fin, len_map_Fin, IZR_len. simpl fdiv at 1.
  rbool. fold (Spec.mean xs).
  rewrite !map_map. simpl.
  replace (map (fun x => Fin ((x + - Spec.mean xs) * (x + - Spec.mean xs))) xs)
    with (map Fin (map (fun x => (x - Spec.mean xs) * (x - Spec.mean xs)) xs))
    by (rewrite map_map; reflexivity).
  rewrite sum_Fin.
  rewrite Z.max_l by lia. rewrite minus_IZR, IZR_len. simpl.
  rbool. reflexivity.
Qed.

Lemma std_Fin (xs : list R) :
  (2 <= List.length xs)%nat ->
  np.std (map Fin xs) 1 = Fin (Spec.stddev xs).
Proof.
  intros H. unfold np.std. rewrite var_Fin by exact H. simpl.
  pose proof (variance_nonneg xs H). rbool. reflexivity.
Qed.

Lemma sqrt_n_pos (xs : list R) : xs <> [] -> 0 < R_sqrt.sqrt (Spec.n xs).
Proof. intros H. apply sqrt_lt_R0, n_pos, H. Qed.

Lemma se_Fin (xs : list R) :
  (2 <= List.length xs)%nat ->
  fdiv (np.std (map Fin xs) 1) (np.sqrt (of_int (len (map Fin xs))))
  = Fin (Spec.stderr xs).
Proof.
  intros H. rewrite std_Fin by exact H.
  assert (Hne : xs <> []) by (intros ->; simpl in H; lia).
  pose proof (n_pos xs Hne). pose proof (sqrt_n_pos xs Hne).
  unfold of_int. rewrite len_map_Fin, IZR_len. simpl.
  rbool. simpl. rbool. reflexivity.
Qed.

Lemma stderr_nonneg (xs : list R) :
  (2 <= List.length xs)%nat -> 0 <= Spec.stderr xs.
Proof.
  intros H. unfold Spec.stderr, Spec.stddev.
  assert (Hne : xs <> []) by (intros ->; simpl in H; lia).
  pose proof (sqrt_n_pos xs Hne). pose proof (sqrt_pos (Spec.variance xs)).
  apply Rmult_le_pos; [assumption |]. apply Rlt_le, Rinv_0_lt_compat. assumption.
Qed.

(** ** The interval of SciPy on finite arguments *)

Section Interval.

Variable stdtrit : Z -> R -> R.

(** The two probabilities at a finite level. *)
Lemma q1_Fin (c : R) : fdiv (fsub (Fin 1) (Fin c)) (Fin 2) = Fin ((1 - c) / 2).
Proof. simpl. rbool. reflexivity. Qed.

Lemma q2_Fin (c : R) : fdiv (fadd (Fin 1) (Fin c)) (Fin 2) = Fin ((1 + c) / 2).
Proof. simpl. rbool. reflexivity. Qed.

(** Inside the support, with valid arguments: the kernel, scaled and moved. *)
Lemma ppf_inside (q : R) (df : Z) (m e : R) :
  (0 < df)%Z -> 0 < e -> 0 < q < 1 ->
  stats.ppf stdtrit (Fin q) df (Fin m) (Fin e) = Fin (stdtrit df q * e + m).
Proof.
  intros Hdf He Hq. unfold stats.ppf, fgt. simpl.
  apply Z.ltb_lt in Hdf. rewrite Hdf. rbool. reflexivity.
Qed.

Lemma ppf_scale_nan (q : pyfloat) (df : Z) (loc : pyfloat) :
  stats.ppf stdtrit q df loc NaN = NaN.
Proof.
  unfold stats.ppf, fgt. simpl.
  rewrite Bool.andb_false_r. reflexivity.
Qed.

Lemma interval_level_ok (c : R) :
  0 <= c <= 1 -> (fgt (Fin c) (Fin 1) || flt (Fin c) (Fin 0))%bool = false.
Proof. intros H. unfold fgt. simpl. rbool. reflexivity. Qed.

Lemma interval_inside (c : R) (df : Z) (m e : R) :
  (0 < df)%Z -> 0 < e -> 0 < c < 1 ->
  stats.interval stdtrit (Fin c) df (Fin m) (Fin e)
  = Returned (Fin (stdtrit df ((1 - c) / 2) * e + m))
             (Fin (stdtrit df ((1 + c) / 2) * e + m)).
Proof.
  intros Hdf He Hc. unfold stats.interval.
  rewrite interval_level_ok by lra. rewrite q1_Fin, q2_Fin.
  rewrite !ppf_inside by (try assumption; lra). reflexivity.
Qed.

Lemma interval_scale_nan (c : pyfloat) (df : Z) (loc : pyfloat) :
  (fgt c (Fin 1) || flt c (Fin 0))%bool = false ->
  stats.interval stdtrit c df loc NaN = Returned NaN NaN.
Proof.
  intros H. unfold stats.interval. rewrite H, !ppf_scale_nan. reflexivity.
Qed.

(** The whole computation on a sample of finite values. *)
Lemma compute_Fin (xs : list R) (conf : pyfloat) :
  (2 <= List.length xs)%nat ->
  computeConfidenceInterval stdtrit (map Fin xs) conf
  = stats.interval stdtrit conf (Spec.df xs)
                   (Fin (Spec.mean xs)) (Fin (Spec.stderr xs)).
Proof.
  intros H. unfold computeConfidenceInterval.
  assert (Hne : xs <> []) by (intros ->; simpl in H; lia).
  rewrite se_Fin by exact H. rewrite mean_Fin by exact Hne.
  rewrite len_map_Fin. reflexivity.
Qed.

Lemma df_pos (xs : list R) : (2 <= List.length xs)%nat -> (0 < Spec.df xs)%Z.
Proof. intros H. unfold Spec.df. lia. Qed.

Lemma compute_inside (xs : list R) (c : R) :
  (2 <= List.length xs)%nat -> 0 < Spec.stderr xs -> 0 < c < 1 ->
  computeConfidenceInterval stdtrit (map Fin xs) (Fin c)
  = Returned
      (Fin (stdtrit (Spec.df xs) ((1 - c) / 2) * Spec.stderr xs + Spec.mean xs))
      (Fin (stdtrit (Spec.df xs) ((1 + c) / 2) * Spec.stderr xs + Spec.mean xs)).
Proof.
  intros H He Hc. rewrite compute_Fin by exact H.
  apply interval_inside; [apply df_pos, H | exact He | exact Hc].
Qed.

End Interval.

(** ** Inputs outside the contract *)

(** The only failure: the level check of [interval]. *)
Lemma compute_raises (stdtrit : Z -> R -> R) (sample : list pyfloat)
      (conf : pyfloat) :
  raises (computeConfidenceInterval stdtrit sample conf)
  = (fgt conf (Fin 1) || flt conf (Fin 0))%bool.
Proof.
  unfold computeConfidenceInterval, stats.interval.
  destruct (fgt conf (Fin 1) || flt conf (Fin 0))%bool; reflexivity.
Qed.

Lemma level_check_Fin (c : R) :
  (fgt (Fin c) (Fin 1) || flt (Fin c) (Fin 0))%bool = true <-> c < 0 \/ 1 < c.
Proof.
  unfold fgt. simpl. rewrite Bool.orb_true_iff, !Rltb_spec. tauto.
Qed.

(** A sample of one finite value: the variance is [0.0 / 0.0]. *)
Lemma var_singleton (v : R) : np.var [Fin v] 1 = NaN.
Proof.
  unfold np.var, np.sum, of_int, len. simpl. rbool. simpl.
  unfold inf_of_sign. rbool. change (Z.max 0 0) with 0%Z. rbool. reflexivity.
Qed.

Lemma std_singleton (v : R) : np.std [Fin v] 1 = NaN.
Proof. unfold np.std. rewrite var_singleton. reflexivity. Qed.

Lemma compute_singleton (stdtrit : Z -> R -> R) (v c : R) :
  0 <= c <= 1 ->
  computeConfidenceInterval stdtrit [Fin v] (Fin c) = Returned NaN NaN.
Proof.
  intros Hc. unfold computeConfidenceInterval. rewrite std_singleton.
  simpl fdiv. apply interval_scale_nan, interval_level_ok, Hc.
Qed.

(** The level [1.0] on valid arguments: the two ends of the support. *)
Lemma interval_level_one (stdtrit : Z -> R -> R) (df : Z) (m e : R) :
  (0 < df)%Z -> 0 < e ->
  stats.interval stdtrit (Fin 1) df (Fin m) (Fin e) = Returned NInf PInf.
Proof.
  intros Hdf He. unfold stats.interval.
  rewrite interval_level_ok by lra. rewrite q1_Fin, q2_Fin.
  unfold stats.ppf, fgt. simpl. apply Z.ltb_lt in Hdf. rewrite Hdf.
  rbool. simpl. unfold inf_of_sign. rbool. reflexivity.
Qed.

(** The level [0.0] on valid arguments: both probabilities are 1/2. *)
Lemma interval_level_zero (stdtrit : Z -> R -> R) (df : Z) (m e : R) :
  (0 < df)%Z -> 0 < e ->
  stats.interval stdtrit (Fin 0) df (Fin m) (Fin e)
  = Returned (Fin (stdtrit df (1 / 2) * e + m))
             (Fin (stdtrit df (1 / 2) * e + m)).
Proof.
  intros Hdf He. unfold stats.interval.
  rewrite interval_level_ok by lra. rewrite q1_Fin, q2_Fin.
  replace ((1 - 0) / 2) with (1 / 2) by lra.
  replace ((1 + 0) / 2) with (1 / 2) by lra.
  rewrite ppf_inside by (try assumption; lra). reflexivity.
Qed.

(** C2 (as amended): the computation fails, with the [ValueError] of the
    library, exactly when the confidence level is below 0 or above 1; on every
    other input, a sample of fewer than two values, a level equal to 0 or to
    1, or a sample with values that are not finite included, it returns a
    pair. *)
Theorem C2_fails_only_outside_unit_interval (stdtrit : Z -> R -> R)
        (sample : list pyfloat) (confidenceLevel : R) :
  (raises (computeConfidenceInterval stdtrit sample (Fin confidenceLevel)) = true
   <-> confidenceLevel < 0 \/ 1 < confidenceLevel)
  /\ (raises (computeConfidenceInterval stdtrit sample (Fin confidenceLevel)) = true ->
      computeConfidenceInterval stdtrit sample (Fin confidenceLevel)
      = Raised (ValueError "alpha must be between 0 and 1 inclusive"))
  /\ (raises (computeConfidenceInterval stdtrit sample (Fin confidenceLevel)) = false ->
      exists a b : pyfloat,
        computeConfidenceInterval stdtrit sample (Fin confidenceLevel)
        = Returned a b).
Proof.
  split; [| split].
  - rewrite compute_raises. apply level_check_Fin.
  - unfold computeConfidenceInterval, stats.interval.
    destruct (fgt (Fin confidenceLevel) (Fin 1) || flt (Fin confidenceLevel) (Fin 0))%bool;
      [reflexivity | discriminate].
  - destruct (computeConfidenceInterval stdtrit sample (Fin confidenceLevel))
      as [e | a b]; [discriminate |]. intros _. exists a, b. reflexivity.
Qed.

(** ** The cholesterol sample *)

Lemma sqrt_between (a b v : R) :
  0 <= a -> 0 <= b -> a * a < v -> v < b * b -> a < R_sqrt.sqrt v < b.
Proof.
  intros Ha Hb Hav Hvb.
  assert (0 <= a * a) by (apply Rmult_le_pos; assumption).
  split.
  - rewrite <- (sqrt_square a Ha). apply sqrt_lt_1_alt. lra.
  - rewrite <- (sqrt_square b Hb). apply sqrt_lt_1_alt. lra.
Qed.

Lemma n_chol : Spec.n chol_levels = 20.
Proof. unfold Spec.n. simpl. lra. Qed.

Lemma mean_chol : Spec.mean chol_levels = 62.45.
Proof. unfold Spec.mean. rewrite n_chol. simpl. lra. Qed.

Lemma variance_chol : Spec.variance chol_levels = 7010.95 / 19.
Proof. unfold Spec.variance. rewrite mean_chol, n_chol. simpl. lra. Qed.

Lemma stddev_chol : 19.20925 < Spec.stddev chol_levels < 19.20935.
Proof.
  unfold Spec.stddev. rewrite variance_chol. apply sqrt_between; lra.
Qed.

Lemma stderr_chol : 4.29525 < Spec.stderr chol_levels < 4.29535.
Proof.
  unfold Spec.stderr, Spec.stddev. rewrite variance_chol, n_chol.
  rewrite <- sqrt_div_alt by lra. apply sqrt_between; lra.
Qed.

(** C3: on the twenty cholesterol readings at the level 0.95 the cells give
    the mean 62.45, the standard deviation 19.2093 and the standard error
    4.2953 (to four decimals), and the interval (53.46, 71.44) (to two
    decimals), for a quantile kernel that is accurate at the one point of the
    reference table the example needs: t = 2.093 at df = 19, p = 0.975, to
    four significant digits, and its mirror image at p = 0.025. *)
Theorem C3_cholesterol_example (stdtrit : Z -> R -> R) (g : globals) :
  2.0925 <= stdtrit 19%Z 0.975 <= 2.0935 ->
  stdtrit 19%Z 0.025 = - stdtrit 19%Z 0.975 ->
  let run := run_cells stdtrit (map Fin chol_levels) (Fin 0.95) g in
  x_bar (fst run) = Fin 62.45
  /\ (exists sd : R, s (fst run) = Fin sd /\ Rabs (sd - 19.2093) < 0.00005)
  /\ (exists e : R, se (fst run) = Fin e /\ Rabs (e - 4.2953) < 0.00005)
  /\ (exists lo hi : R,
         snd run = Returned (Fin lo) (Fin hi)
         /\ Rabs (lo - 53.46) < 0.005 /\ Rabs (hi - 71.44) < 0.005).
Proof.
  intros Ht Hsym run.
  assert (Hn : (2 <= List.length chol_levels)%nat) by (simpl; lia).
  assert (Hne : chol_levels <> []) by discriminate.
  pose proof stddev_chol as Hsd. pose proof stderr_chol as He.
  split; [| split; [| split]].
  - change (x_bar (fst run)) with (np.mean (map Fin chol_levels)).
    rewrite mean_Fin by exact Hne. rewrite mean_chol. reflexivity.
  - exists (Spec.stddev chol_levels). split.
    + change (s (fst run)) with (np.std (map Fin chol_levels) 1).
      apply std_Fin, Hn.
    + apply Rabs_def1; lra.
  - exists (Spec.stderr chol_levels). split.
    + change (se (fst run))
        with (fdiv (np.std (map Fin chol_levels) 1)
                   (np.sqrt (of_int (len (map Fin chol_levels))))).
      apply se_Fin, Hn.
    + apply Rabs_def1; lra.
  - change (snd run)
      with (computeConfidenceInterval stdtrit (map Fin chol_levels) (Fin 0.95)).
    rewrite compute_inside by (try assumption; lra).
    eexists. eexists. split; [reflexivity |].
    change (Spec.df chol_levels) with 19%Z.
    replace ((1 - 0.95) / 2) with 0.025 by lra.
    replace ((1 + 0.95) / 2) with 0.975 by lra.
    rewrite Hsym, mean_chol.
    set (t := stdtrit 19%Z 0.975) in *. set (e := Spec.stderr chol_levels) in *.
    assert (8.9878 < t * e < 8.9924) by nra.
    split; apply Rabs_def1; lra.
Qed.

(** ** The claims at concrete inputs *)

(** C2, as stated, fails on the sample [7.0]: one value, and the notebook
    returns a pair. *)
Lemma C2_counterexample :
  computeConfidenceInterval table_quantile [Fin 7] (Fin 0.95)
  = Returned NaN NaN.
Proof. apply compute_singleton. lra. Qed.

Lemma C3_witness :
  let run := run_cells table_quantile (map Fin chol_levels) (Fin 0.95)
                       fresh_globals in
  x_bar (fst run) = Fin 62.45
  /\ (exists sd : R, s (fst run) = Fin sd /\ Rabs (sd - 19.2093) < 0.00005)
  /\ (exists e : R, se (fst run) = Fin e /\ Rabs (e - 4.2953) < 0.00005)
  /\ (exists lo hi : R,
         snd run = Returned (Fin lo) (Fin hi)
         /\ Rabs (lo - 53.46) < 0.005 /\ Rabs (hi - 71.44) < 0.005).
Proof.
  apply (C3_cholesterol_example table_quantile fresh_globals).
  - unfold table_quantile. lra.
  - unfold table_quantile. lra.
Defined.


(** ** Values that are not finite *)

Lemma isfinite_fadd_l (a b : pyfloat) :
  isfinite a = false -> isfinite (fadd a b) = false.
Proof. destruct a, b; simpl; intros H; try reflexivity; discriminate. Qed.

Lemma isfinite_fadd_r (a b : pyfloat) :
  isfinite b = false -> isfinite (fadd a b) = false.
Proof. destruct a, b; simpl; intros H; try reflexivity; discriminate. Qed.

Lemma fold_nonfinite_acc (l : list pyfloat) (acc : pyfloat) :
  isfinite acc = false -> isfinite (fold_left fadd l acc) = false.
Proof.
  revert acc. induction l as [| x l IH]; intros acc H; simpl; [exact H |].
  apply IH, isfinite_fadd_l, H.
Qed.

Lemma fold_nonfinite_in (l : list pyfloat) (x acc : pyfloat) :
  In x l -> isfinite x = false -> isfinite (fold_left fadd l acc) = false.
Proof.
  revert acc. induction l as [| y l IH]; intros acc Hin Hx; [destruct Hin |].
  simpl. destruct Hin as [-> | Hin].
  - apply fold_nonfinite_acc, isfinite_fadd_r, Hx.
  - apply IH; assumption.
Qed.

Lemma fold_nan_acc (l : list pyfloat) : fold_left fadd l NaN = NaN.
Proof. induction l as [| x l IH]; simpl; [reflexivity | exact IH]. Qed.

Lemma fold_nan_in (l : list pyfloat) (acc : pyfloat) :
  In NaN l -> fold_left fadd l acc = NaN.
Proof.
  revert acc. induction l as [| y l IH]; intros acc Hin; [destruct Hin |].
  simpl. destruct Hin as [-> | Hin].
  - replace (fadd acc NaN) with NaN by (destruct acc; reflexivity).
    apply fold_nan_acc.
  - apply IH, Hin.
Qed.

(** A sum is infinite only if the infinity was one of the values. *)
Lemma fold_pinf (l : list pyfloat) (acc : pyfloat) :
  fold_left fadd l acc = PInf -> acc = PInf \/ In PInf l.
Proof.
  revert acc. induction l as [| y l IH]; intros acc H; simpl in H; [left; exact H |].
  destruct (IH _ H) as [E | Hin]; [| right; right; exact Hin].
  destruct acc, y; simpl in E; try discriminate;
    try (left; reflexivity); right; left; reflexivity.
Qed.

Lemma fold_ninf (l : list pyfloat) (acc : pyfloat) :
  fold_left fadd l acc = NInf -> acc = NInf \/ In NInf l.
Proof.
  revert acc. induction l as [| y l IH]; intros acc H; simpl in H; [left; exact H |].
  destruct (IH _ H) as [E | Hin]; [| right; right; exact Hin].
  destruct acc, y; simpl in E; try discriminate;
    try (left; reflexivity); right; left; reflexivity.
Qed.

Lemma len_pos (l : list pyfloat) (x : pyfloat) : In x l -> 0 < IZR (len l).
Proof.
  intros H. destruct l as [| y l]; [destruct H |].
  unfold len. apply IZR_lt. simpl. lia.
Qed.

(** A value that is not finite makes the variance [nan]: the mean is not
    finite, and the deviation of an infinite value from an infinite mean of
    its sign is [inf - inf]. *)
Lemma var_nonfinite (l : list pyfloat) (x : pyfloat) (ddof : Z) :
  In x l -> isfinite x = false -> np.var l ddof = NaN.
Proof.
  intros Hin Hx. pose proof (len_pos l x Hin) as Hlen.
  assert (Hsum : isfinite (np.sum l) = false)
    by (apply (fold_nonfinite_in l x); assumption).
  unfold np.var.
  set (a := fdiv (np.sum l) (of_int (len l))).
  assert (Hnan : In NaN (map (fun v => fmul v v) (map (fun v => fsub v a) l))).
  { rewrite map_map. apply in_map_iff. unfold a, of_int.
    destruct (np.sum l) eqn:E; simpl in Hsum; try discriminate.
    - exists PInf. split.
      + simpl. rbool. reflexivity.
      + destruct (fold_pinf l (Fin 0) E) as [H0 | H0]; [discriminate | exact H0].
    - exists NInf. split.
      + simpl. rbool. reflexivity.
      + destruct (fold_ninf l (Fin 0) E) as [H0 | H0]; [discriminate | exact H0].
    - exists x. split; [destruct x; reflexivity | exact Hin]. }
  unfold np.sum at 1. rewrite (fold_nan_in _ (Fin 0) Hnan). reflexivity.
Qed.

(** X9: a sample with a value that is not finite ([inf], [-inf] or [nan])
    is not rejected: the standard deviation is [nan] and, at every level from
    0 to 1, the returned pair is (nan, nan). *)
Theorem X9_nonfinite_value_gives_nan (stdtrit : Z -> R -> R)
        (sample : list pyfloat) (x : pyfloat) (confidenceLevel : R) :
  In x sample ->
  isfinite x = false ->
  0 <= confidenceLevel <= 1 ->
  np.std sample 1 = NaN
  /\ computeConfidenceInterval stdtrit sample (Fin confidenceLevel)
     = Returned NaN NaN.
Proof.
  intros Hin Hx Hc.
  assert (Hstd : np.std sample 1 = NaN)
    by (unfold np.std; rewrite (var_nonfinite sample x 1%Z Hin Hx); reflexivity).
  split; [exact Hstd |].
  unfold computeConfidenceInterval. rewrite Hstd. simpl fdiv.
  apply interval_scale_nan, interval_level_ok, Hc.
Qed.

(** X10: a level that is [nan] passes the level check of the library and
    gives (nan, nan) on every sample; a level that is infinite is rejected
    like every level outside [0, 1]. *)
Theorem X10_nonfinite_level (stdtrit : Z -> R -> R) (sample : list pyfloat) :
  computeConfidenceInterval stdtrit sample NaN = Returned NaN NaN
  /\ computeConfidenceInterval stdtrit sample PInf
     = Raised (ValueError "alpha must be between 0 and 1 inclusive")
  /\ computeConfidenceInterval stdtrit sample NInf
     = Raised (ValueError "alpha must be between 0 and 1 inclusive").
Proof.
  split; [| split]; try reflexivity.
  unfold computeConfidenceInterval, stats.interval, stats.ppf. simpl.
  rewrite !Bool.andb_false_r. reflexivity.
Qed.

Lemma X9_witness :
  np.std [Fin 1; PInf] 1 = NaN
  /\ computeConfidenceInterval cauchy_quantile [Fin 1; PInf] (Fin 0.95)
     = Returned NaN NaN.
Proof.
  apply (X9_nonfinite_value_gives_nan cauchy_quantile [Fin 1; PInf] PInf 0.95).
  - right; left; reflexivity.
  - reflexivity.
  - lra.
Defined.

(** * The code on binary64 floats *)

(** ** Floating-point addition *)

Lemma b64_add_comm (x y : float) : (x + y)%float = (y + x)%float.
Proof.
  apply Prim2SF_inj. rewrite !FloatAxioms.add_spec. unfold SF64add, SFadd.
  destruct (Prim2SF x) as [sx | sx | | sx mx ex],
           (Prim2SF y) as [sy | sy | | sy my ey];
    try reflexivity.
  - destruct sx, sy; reflexivity.
  - destruct sx, sy; reflexivity.
  - rewrite (Z.min_comm ey ex), Z.add_comm. reflexivity.
Qed.


(** ** Signs, infinities and [nan] *)





Section Binary64.

Local Open Scope float_scope.

Variable stdtrit : Z -> float -> float.

(** ** The interval of SciPy *)










(** ** The claims *)







End Binary64.

(** ** Inputs outside the contract, on both readings *)



(** ** The notebook's own output *)

(** X13: on the twenty readings of the notebook the binary64 statistics are
    the three numbers the notebook printed, 62.45, 19.209304214912432 and
    4.295331002501743, digit for digit. *)
Theorem X13_printed_statistics :
  B64.x_bar B64.sample_chol_levels = 62.45%float
  /\ B64.s B64.sample_chol_levels = 19.209304214912432%float
  /\ B64.se B64.sample_chol_levels = 4.295331002501743%float.
Proof. vm_compute. repeat split. Qed.

(** X14: on binary64 floats, too, the call fails exactly when the level
    compares above 1 or below 0, on every sample.  A level that is [nan]
    passes this check and gives (nan, nan); an infinite level fails it. *)
Theorem X14_level_check_binary64 (stdtrit : Z -> float -> float)
        (sample : list float) :
  (forall confidenceLevel : float,
      B64.computeConfidenceInterval stdtrit sample confidenceLevel
      = B64.Raised (ValueError "alpha must be between 0 and 1 inclusive")
      <-> ((1 <? confidenceLevel) || (confidenceLevel <? 0))%float%bool = true)
  /\ B64.computeConfidenceInterval stdtrit sample nan = B64.Returned nan nan
  /\ B64.computeConfidenceInterval stdtrit sample infinity
     = B64.Raised (ValueError "alpha must be between 0 and 1 inclusive")
  /\ B64.computeConfidenceInterval stdtrit sample neg_infinity
     = B64.Raised (ValueError "alpha must be between 0 and 1 inclusive").
Proof.
  split; [| split; [| split]]; try reflexivity.
  - intros c. unfold B64.computeConfidenceInterval, B64.stats.interval.
    destruct ((1 <? c) || (c <? 0))%float%bool; split; intros H;
      try reflexivity; discriminate.
  - unfold B64.computeConfidenceInterval, B64.stats.interval, B64.stats.ppf.
    simpl. rewrite !Bool.andb_false_r. reflexivity.
Qed.

(** ** The claims at concrete inputs *)

Section Binary64Examples.

Local Open Scope float_scope.












End Binary64Examples.
